(** * The leak-report map viewer (frontend/config.js, frontend/js/main.js)

    A shallow embedding of the two scripts of the viewer: the configuration
    record, the priority classifier [getPriorityColor], the style mapper
    [stylePoints], the popup builder [onEachFeature] and the fetch chain that
    loads the WFS layer.

    Modelling conventions.
    - A JavaScript number is an IEEE-754 double.  The program only compares
      numbers, tests them for truthiness and prints them; none of these
      rounds.  A double is therefore represented by the extended rational it
      denotes ([Finite q], the two infinities) or by [NaN]; both zeros are
      [Finite 0] (they compare equal, are both falsy and both print as 0).
    - The attribute values of a WFS feature are JSON scalars (null, booleans,
      numbers, strings); a missing attribute reads as [Undefined].  The
      properties object of a feature is a finite map from names to scalars.
    - The services of the JavaScript runtime whose result is
      implementation-defined or needs the binary representation of a double
      (the digits of a non-integral number, the numeric value of a string,
      Date.parse, the locale rendering of a valid date) are section variables.
    - Leaflet, fetch, console and alert are the environment: what their calls
      leave behind is recorded in the state of the page ([World]); what a
      request settles to is an input of the script. *)

From Stdlib Require Import ZArith QArith Qabs String Ascii List Lia.
From stdpp Require Import gmap strings pretty.

Local Open Scope string_scope.

(** ** Numbers *)

Inductive number : Type :=
| NaN
| NegInfinity
| Finite (q : Q)
| PosInfinity.

(** Number::lessThan (x, y) of ECMA-262; [None] is the result undefined. *)
Definition Number_lessThan (x y : number) : option bool :=
  match x, y with
  | NaN, _ => None
  | _, NaN => None
  | PosInfinity, _ => Some false
  | _, PosInfinity => Some true
  | _, NegInfinity => Some false
  | NegInfinity, _ => Some true
  | Finite a, Finite b =>
      Some match (a ?= b)%Q with Lt => true | _ => false end
  end.

Definition is_zero (q : Q) : bool := (Qnum q =? 0)%Z.

(** ** Primitive values *)

Inductive prim : Type :=
| Undefined
| Null
| Bool (b : bool)
| Num (n : number)
| Str (s : string).

Definition num_of_Z (z : Z) : prim := Num (Finite (inject_Z z)).

(** ToBoolean. *)
Definition ToBoolean (v : prim) : bool :=
  match v with
  | Undefined | Null => false
  | Bool b => b
  | Num NaN => false
  | Num (Finite q) => negb (is_zero q)
  | Num _ => true
  | Str s => negb (String.eqb s EmptyString)
  end.

(** [a || b]. *)
Definition or_else (a b : prim) : prim :=
  if ToBoolean a then a else b.

(** [a ?? b], the operator the specification names. *)
Definition nullish_else (a b : prim) : prim :=
  match a with
  | Undefined | Null => b
  | _ => a
  end.

(** ** Errors and completions *)

Inductive error : Type :=
| Error (message : string)
| TypeError (message : string)
| SyntaxError (message : string)
| ReferenceError (message : string).

(** The completion of an expression or of a settled promise: a value, or a
    thrown error (a rejection). *)
Inductive result (A : Type) : Type :=
| Ok (a : A)
| Throw (e : error).

Arguments Ok {A} a.
Arguments Throw {A} e.

#[global] Instance result_ret : MRet result := fun A a => Ok a.

#[global] Instance result_bind : MBind result := fun A B f r =>
  match r with
  | Ok a => f a
  | Throw e => Throw e
  end.

#[global] Instance result_fmap : FMap result := fun A B f r =>
  match r with
  | Ok a => Ok (f a)
  | Throw e => Throw e
  end.

(** ** Values, features, layers *)

(** What [feature.properties] can hold: a scalar (among them undefined and
    null) or an object of attributes. *)
Inductive value : Type :=
| VPrim (p : prim)
| VObject (o : gmap string prim).

Definition ToBoolean_value (v : value) : bool :=
  match v with
  | VPrim p => ToBoolean p
  | VObject _ => true
  end.

(** The message of the TypeError raised by a property read on undefined or
    null (the wording is the engine's; this is V8's). *)
Definition cannot_read (of_ name : string) : error :=
  TypeError ("Cannot read properties of " +:+ of_ +:+ " (reading '"
               +:+ name +:+ "')").

(** The property read [v.name], for a name no prototype defines.  Reading a
    property of undefined or null throws a TypeError; a missing property
    reads as undefined. *)
Definition Get (v : value) (name : string) : result prim :=
  match v with
  | VPrim Undefined => Throw (cannot_read "undefined" name)
  | VPrim Null => Throw (cannot_read "null" name)
  | VPrim _ => Ok Undefined
  | VObject o => Ok (default Undefined (o !! name))
  end.

Record LatLng : Type := {
  lat : Q;
  lng : Q
}.

(** A feature with a Point geometry, the kind the WFS layer serves: its
    properties member and the position Leaflet reads off its coordinates. *)
Record Feature : Type := {
  properties : value;
  latlng : LatLng
}.

(** A feature lacks a properties object when the member is missing or null
    (GeoJSON allows null there). *)
Definition lacks_properties (feature : Feature) : bool :=
  match properties feature with
  | VPrim Undefined | VPrim Null => true
  | _ => false
  end.

(** The object literal built by stylePoints. *)
Record Style : Type := {
  radius : Q;
  fillColor : string;
  color : string;
  weight : Q;
  opacity : Q;
  fillOpacity : Q
}.

(** A circle marker: where it stands, its options, the popup bound to it. *)
Record Marker : Type := {
  position : LatLng;
  options : Style;
  popup : option string
}.

Definition circleMarker (at_ : LatLng) (st : Style) : Marker :=
  {| position := at_; options := st; popup := None |}.

Definition bindPopup (layer : Marker) (content : string) : Marker :=
  {| position := position layer; options := options layer;
     popup := Some content |}.

(** ** Text helpers *)

Definition nl : string := String (ascii_of_nat 10) EmptyString.
Definition dquote : string := String (ascii_of_nat 34) EmptyString.

(** String.prototype.includes. *)
Definition includes (hay needle : string) : bool :=
  match String.index 0 needle hay with
  | Some _ => true
  | None => false
  end.

(** ** config.js *)

Record Config : Type := {
  osmTileUrl : string;
  osmAttribution : string;
  wfsServiceUrl : string;
  centerLat : Q;
  centerLon : Q;
  defaultZoom : Q
}.

Definition config : Config := {|
  osmTileUrl := "https://{s}.tile.openstreetmap.org/{z}/{x}/{y}.png";
  osmAttribution :=
    "&copy; <a href=" +:+ dquote +:+ "https://www.openstreetmap.org/copyright"
      +:+ dquote +:+ ">OpenStreetMap</a> contributors";
  wfsServiceUrl :=
    "http://localhost:8080/qgis/qgis_server.fcgi?MAP=/path/to/your/qgis_project.qgz&SERVICE=WFS&VERSION=1.0.0&REQUEST=GetFeature&TYPENAME=vazamentos_denuncias&OUTPUTFORMAT=application/json";
  centerLat := - (235505 # 10000);
  centerLon := - (466333 # 10000);
  defaultZoom := 12
|}.

(** ** The page: what the script can observe and change *)

Inductive Layer : Type :=
| TileLayer (urlTemplate attribution : string) (maxZoom : Q)
| GeoJSONLayer (markers : list Marker).

Inductive ConsoleEntry : Type :=
| ConsoleError (message : string) (detail : option error)
| ConsoleLog (message : string).

Record World : Type := {
  global_config : option Config;  (* the global binding [config], if config.js ran *)
  map_view : option (LatLng * Q); (* centre and zoom of the Leaflet map *)
  map_layers : list Layer;        (* layers added to the map, oldest first *)
  requests : list string;         (* URLs passed to fetch, oldest first *)
  console : list ConsoleEntry;    (* console output, oldest first *)
  alerts : list string            (* alert boxes shown, oldest first *)
}.

(** The page when main.js starts: config.js has run, or failed to load. *)
Definition boot (cfg : option Config) : World := {|
  global_config := cfg;
  map_view := None;
  map_layers := [];
  requests := [];
  console := [];
  alerts := []
|}.

(** The markers that stand on the map. *)
Definition layer_markers (l : Layer) : list Marker :=
  match l with
  | TileLayer _ _ _ => []
  | GeoJSONLayer ms => ms
  end.

Definition markers_on_map (w : World) : list Marker :=
  concat (map layer_markers (map_layers w)).

(** ** Scripts: state passing over the page, with exceptions *)

Definition Script (A : Type) : Type := World -> World * result A.

#[global] Instance script_ret : MRet Script := fun A a w => (w, Ok a).

#[global] Instance script_bind : MBind Script := fun A B f m w =>
  match m w with
  | (w', Ok a) => f a w'
  | (w', Throw e) => (w', Throw e)
  end.

Definition throw {A : Type} (e : error) : Script A := fun w => (w, Throw e).

(** [try { body } catch (e) { handler e }], also a promise's [.catch]. *)
Definition catch {A : Type} (body : Script A) (handler : error -> Script A)
  : Script A := fun w =>
  match body w with
  | (w', Ok a) => (w', Ok a)
  | (w', Throw e) => handler e w'
  end.

(** A completion computed without touching the page. *)
Definition lift {A : Type} (r : result A) : Script A := fun w => (w, r).

(** [typeof config === 'undefined'] *)
Definition config_is_undefined : Script bool := fun w =>
  (w, Ok (match global_config w with None => true | Some _ => false end)).

(** An evaluation of the identifier [config]. *)
Definition read_config : Script Config := fun w =>
  match global_config w with
  | Some c => (w, Ok c)
  | None => (w, Throw (ReferenceError "config is not defined"))
  end.

Definition console_error (message : string) (detail : option error)
  : Script unit := fun w =>
  ({| global_config := global_config w; map_view := map_view w;
      map_layers := map_layers w; requests := requests w;
      console := console w ++ [ConsoleError message detail];
      alerts := alerts w |}, Ok tt).

Definition console_log (message : string) : Script unit := fun w =>
  ({| global_config := global_config w; map_view := map_view w;
      map_layers := map_layers w; requests := requests w;
      console := console w ++ [ConsoleLog message];
      alerts := alerts w |}, Ok tt).

Definition alert (message : string) : Script unit := fun w =>
  ({| global_config := global_config w; map_view := map_view w;
      map_layers := map_layers w; requests := requests w;
      console := console w;
      alerts := alerts w ++ [message] |}, Ok tt).

(** [L.map('map').setView(center, zoom)] *)
Definition map_setView (center : LatLng) (zoom : Q) : Script unit := fun w =>
  ({| global_config := global_config w; map_view := Some (center, zoom);
      map_layers := map_layers w; requests := requests w;
      console := console w; alerts := alerts w |}, Ok tt).

(** [layer.addTo(map)] *)
Definition addTo_map (l : Layer) : Script unit := fun w =>
  ({| global_config := global_config w; map_view := map_view w;
      map_layers := map_layers w ++ [l]; requests := requests w;
      console := console w; alerts := alerts w |}, Ok tt).

(** ** The server's answer *)

(** The parsed body as Leaflet's GeoJSON layer reads it: a value it
    rejects, or the Point features it visits, in order.  The model follows
    Leaflet on Point features only: for a feature with another geometry
    Leaflet builds a path without calling pointToLayer, and it skips a
    feature with no geometry; such features are not in the list.  A body
    with no feature at all (null, an empty array) is the empty list. *)
Inductive Data : Type :=
| Malformed
| FeatureCollection (features : list Feature).

(** A response: its status, and what [response.json()] settles to. *)
Record Response : Type := {
  status : Z;
  json : result Data
}.

(** [response.ok]: the status is in the range 200-299. *)
Definition ok (r : Response) : bool :=
  ((200 <=? status r) && (status r <=? 299))%Z.

(** [fetch(url)], given what the request settles to. *)
Definition fetch (url : string) (settles : result Response)
  : Script Response := fun w =>
  ({| global_config := global_config w; map_view := map_view w;
      map_layers := map_layers w; requests := requests w ++ [url];
      console := console w; alerts := alerts w |}, settles).

(** The callbacks handed to [L.geoJSON]. *)
Record GeoJSONOptions : Type := {
  pointToLayer : Feature -> LatLng -> result Marker;
  onEachFeature_option : Feature -> Marker -> result Marker
}.

(** [L.geoJSON(data, options)] on Point features: for each of them in turn,
    the marker made by pointToLayer is passed to onEachFeature and joins the
    group; an exception of a callback leaves the constructor. *)
Fixpoint geoJSON_features (opts : GeoJSONOptions) (fs : list Feature)
  : result (list Marker) :=
  match fs with
  | [] => Ok []
  | f :: rest =>
      layer ← pointToLayer opts f (latlng f);
      layer' ← onEachFeature_option opts f layer;
      layers ← geoJSON_features opts rest;
      Ok (layer' :: layers)
  end.

Definition geoJSON (data : Data) (opts : GeoJSONOptions) : result Layer :=
  match data with
  | Malformed => Throw (Error "Invalid GeoJSON object.")
  | FeatureCollection fs =>
      layers ← geoJSON_features opts fs;
      Ok (GeoJSONLayer layers)
  end.

(** The request succeeded and its body parsed as the feature collection
    [fs]. *)
Definition loaded (settles : result Response) (fs : list Feature) : Prop :=
  exists response,
    settles = Ok response /\ ok response = true /\
    json response = Ok (FeatureCollection fs).

Definition all_have_properties (fs : list Feature) : bool :=
  forallb (fun feature => negb (lacks_properties feature)) fs.

(** A script that leaves the global [config] as it found it. *)
Definition preserves_config {A : Type} (m : Script A) : Prop :=
  forall w : World, global_config (fst (m w)) = global_config w.

(** ** main.js *)

Section Runtime.

(** The digits of a positive finite number that is not an integer below
    2^53 (Number::toString, the shortest digits that round-trip). *)
Variable NumberDigits : Q -> string.
(** StringToNumber. *)
Variable StringToNumber : string -> number.
(** Date.parse: a time value in milliseconds, or NaN ([None]). *)
Variable Date_parse : string -> option Z.
(** The locale rendering of a valid time value. *)
Variable Date_localeFormat : Z -> string.

(** The integer a rational is, when it is one of magnitude at most 2^53. *)
Definition safe_integer (q : Q) : option Z :=
  let n := Qnum q in
  let d := Zpos (Qden q) in
  if ((n mod d =? 0) && (Z.abs (n / d) <=? 2 ^ 53))%Z
  then Some (n / d)%Z else None.

Definition positive_toString (q : Q) : string :=
  match safe_integer q with
  | Some z => pretty z
  | None => NumberDigits q
  end.

(** Number::toString, radix 10. *)
Definition Number_toString (n : number) : string :=
  match n with
  | NaN => "NaN"
  | PosInfinity => "Infinity"
  | NegInfinity => "-Infinity"
  | Finite q =>
      if is_zero q then "0"
      else if (Qnum q <? 0)%Z then "-" +:+ positive_toString (- q)
      else positive_toString q
  end.

(** ToString, as a template literal applies it. *)
Definition ToString (v : prim) : string :=
  match v with
  | Undefined => "undefined"
  | Null => "null"
  | Bool true => "true"
  | Bool false => "false"
  | Num n => Number_toString n
  | Str s => s
  end.

Definition ToNumber (v : prim) : number :=
  match v with
  | Undefined => NaN
  | Null => Finite 0
  | Bool true => Finite 1
  | Bool false => Finite 0
  | Num n => n
  | Str s => StringToNumber s
  end.

(** IsLessThan (x, y): strings compare by code units, anything else as
    numbers. *)
Definition IsLessThan (x y : prim) : option bool :=
  match x, y with
  | Str a, Str b => Some (String.ltb a b)
  | _, _ => Number_lessThan (ToNumber x) (ToNumber y)
  end.

(** [x >= y]: true when IsLessThan (x, y) is false, false when it is true
    or undefined. *)
Definition ge (x y : prim) : bool :=
  match IsLessThan x y with
  | Some false => true
  | _ => false
  end.

(** 3. the colour of a marker, from the priority score *)
Definition getPriorityColor (score : prim) : string :=
  if ge score (num_of_Z 5) then "red"
  else if ge score (num_of_Z 2) then "orange"
  else "green".

(** 4. the style of the points *)
Definition stylePoints (feature : Feature) : result Style :=
  prioridade_score ← Get (properties feature) "prioridade_score";
  let score := or_else prioridade_score (num_of_Z 0) in
  Ok {| radius := 8;
        fillColor := getPriorityColor score;
        color := "#000";
        weight := 1;
        opacity := 1;
        fillOpacity := 8 # 10 |}.

(** TimeClip, after ToIntegerOrInfinity's truncation. *)
Definition TimeClip (n : number) : option Z :=
  match n with
  | Finite q =>
      if Qle_bool (Qabs q) (inject_Z 8640000000000000)
      then Some (Z.quot (Qnum q) (Zpos (Qden q)))
      else None
  | _ => None
  end.

(** The time value of [new Date(v)]; [None] is an invalid date. *)
Definition Date_new (v : prim) : option Z :=
  match v with
  | Str s => Date_parse s
  | _ => TimeClip (ToNumber v)
  end.

(** Date.prototype.toLocaleString (ECMA-402: an invalid date prints as
    Invalid Date). *)
Definition toLocaleString (tv : option Z) : string :=
  match tv with
  | None => "Invalid Date"
  | Some t => Date_localeFormat t
  end.

(** The image element appended for a photo. *)
Definition photo_img (foto_url : prim) : string :=
  "<img src=" +:+ dquote +:+ ToString foto_url +:+ dquote
    +:+ " alt=" +:+ dquote +:+ "Foto do Vazamento" +:+ dquote
    +:+ " style=" +:+ dquote
    +:+ "max-width:200px; height:auto; margin-top: 10px;" +:+ dquote
    +:+ ">".

(** The body of the guarded block of onEachFeature, up to the call of
    bindPopup: the text of the popup for the properties [props]. *)
Definition popupContent (props : value) : result string :=
  tipo_vazamento ← Get props "tipo_vazamento";
  descricao_detalhes ← Get props "descricao_detalhes";
  intensidade_vazamento ← Get props "intensidade_vazamento";
  origem_vazamento ← Get props "origem_vazamento";
  prioridade_score ← Get props "prioridade_score";
  status ← Get props "status";
  data_submissao ← Get props "data_submissao";
  let popupContent :=
    nl +:+ "            <b>Tipo:</b> "
       +:+ ToString (or_else tipo_vazamento (Str "N/A")) +:+ "<br>"
    +:+ nl +:+ "            <b>Descrição:</b> "
       +:+ ToString (or_else descricao_detalhes (Str "N/A")) +:+ "<br>"
    +:+ nl +:+ "            <b>Intensidade:</b> "
       +:+ ToString (or_else intensidade_vazamento (Str "N/A")) +:+ "<br>"
    +:+ nl +:+ "            <b>Origem:</b> "
       +:+ ToString (or_else origem_vazamento (Str "N/A")) +:+ "<br>"
    +:+ nl +:+ "            <b>Prioridade:</b> "
       +:+ ToString (or_else prioridade_score (num_of_Z 0)) +:+ "<br>"
    +:+ nl +:+ "            <b>Status:</b> "
       +:+ ToString (or_else status (Str "N/A")) +:+ "<br>"
    +:+ nl +:+ "            <b>Reportado em:</b> "
       +:+ toLocaleString (Date_new data_submissao) +:+ "<br>"
    +:+ nl +:+ "        " in
  foto_url ← Get props "foto_url";
  if ToBoolean foto_url
  then (foto_url' ← Get props "foto_url";
        Ok (popupContent +:+ photo_img foto_url'))
  else Ok popupContent.

(** 5. the popup of a point; the result is the layer after the call. *)
Definition onEachFeature (feature : Feature) (layer : Marker)
  : result Marker :=
  if ToBoolean_value (properties feature) then
    let props := properties feature in
    popupContent ← popupContent props;
    Ok (bindPopup layer popupContent)
  else Ok layer.

(** The options object of the call of L.geoJSON. *)
Definition geoJSON_options : GeoJSONOptions := {|
  pointToLayer := fun feature latlng =>
    style ← stylePoints feature;
    Ok (circleMarker latlng style);
  onEachFeature_option := onEachFeature
|}.

(** 6. the fetch chain: [fetch(...).then(...).then(...).catch(...)], given
    what the request settles to. *)
Definition load_leaks (settles : result Response) : Script unit :=
  config ← read_config;
  catch
    (response ← fetch (wfsServiceUrl config) settles;
     data ← (if negb (ok response)
             then throw (Error ("Erro HTTP! Status: "
                                  +:+ ToString (num_of_Z (status response))))
             else lift (json response));
     layer ← lift (geoJSON data geoJSON_options);
     addTo_map layer;;
     console_log "Dados de vazamentos carregados com sucesso.")
    (fun error =>
       console_error "Erro ao carregar dados WFS:" (Some error);;
       alert "Não foi possível carregar os dados de vazamentos. Verifique a URL do WFS e o servidor.").

(** The whole script, statements 1 to 6 after the check of config. *)
Definition main (settles : result Response) : Script unit :=
  undefined ← config_is_undefined;
  (if undefined : bool
   then console_error
          "Erro: config.js não foi carregado. Verifique o caminho no index.html."
          None
   else mret tt);;
  config ← read_config;
  map_setView {| lat := centerLat config; lng := centerLon config |}
              (defaultZoom config);;
  config ← read_config;
  addTo_map (TileLayer (osmTileUrl config) (osmAttribution config) 19);;
  load_leaks settles.

(** The page after statements 1 and 2: the view is set, the base layer is
    on the map. *)
Definition mapped (c : Config) : World := {|
  global_config := Some c;
  map_view := Some ({| lat := centerLat c; lng := centerLon c |},
                    defaultZoom c);
  map_layers := [TileLayer (osmTileUrl c) (osmAttribution c) 19];
  requests := [];
  console := [];
  alerts := []
|}.

(** The page after a failure of the chain with the error [e]. *)
Definition failed (c : Config) (e : error) : World := {|
  global_config := Some c;
  map_view := map_view (mapped c);
  map_layers := map_layers (mapped c);
  requests := [wfsServiceUrl c];
  console := [ConsoleError "Erro ao carregar dados WFS:" (Some e)];
  alerts := ["Não foi possível carregar os dados de vazamentos. Verifique a URL do WFS e o servidor."]
|}.

(** The page after a success of the chain with the markers [ms]. *)
Definition rendered (c : Config) (ms : list Marker) : World := {|
  global_config := Some c;
  map_view := map_view (mapped c);
  map_layers := map_layers (mapped c) ++ [GeoJSONLayer ms];
  requests := [wfsServiceUrl c];
  console := [ConsoleLog "Dados de vazamentos carregados com sucesso."];
  alerts := []
|}.

(** The page once main.js has run and the request has settled, when
    config.js defined [c]. *)
Definition page_after (c : Config) (settles : result Response) : World :=
  fst (main settles (boot (Some c))).

(** ** The classifier *)

(** [x >= k] on a finite number is the order of the rationals. *)
Lemma ge_finite (q : Q) (k : Z) :
  ge (Num (Finite q)) (num_of_Z k) = true <-> (inject_Z k <= q)%Q.
Proof.
  unfold ge, num_of_Z; simpl.
  rewrite Qle_alt, <- (Qcompare_antisym q (inject_Z k)).
  destruct (q ?= inject_Z k)%Q; simpl; split; congruence.
Qed.

Lemma ge_finite_false (q : Q) (k : Z) :
  ge (Num (Finite q)) (num_of_Z k) = false <-> (q < inject_Z k)%Q.
Proof.
  unfold ge, num_of_Z; simpl.
  rewrite Qlt_alt.
  destruct (q ?= inject_Z k)%Q; simpl; split; congruence.
Qed.

Lemma getPriorityColor_cases (score : prim) :
  getPriorityColor score =
    if ge score (num_of_Z 5) then "red"
    else if ge score (num_of_Z 2) then "orange" else "green".
Proof. reflexivity. Qed.

(** Closes a goal made of equations between distinct colours and of order
    facts that the context settles or contradicts. *)
Ltac settle_order :=
  repeat split; intros;
  repeat match goal with H : _ /\ _ |- _ => destruct H end;
  try discriminate; try assumption;
  match goal with
  | H1 : (?a < ?b)%Q, H2 : (?b <= ?a)%Q |- _ =>
      exfalso; exact (Qlt_not_le _ _ H1 H2)
  end.

(** The class of a finite score, by the order of the rationals. *)
Lemma getPriorityColor_finite (q : Q) :
  (getPriorityColor (Num (Finite q)) = "red" <-> (5 <= q)%Q) /\
  (getPriorityColor (Num (Finite q)) = "orange"
     <-> (2 <= q)%Q /\ (q < 5)%Q) /\
  (getPriorityColor (Num (Finite q)) = "green" <-> (q < 2)%Q).
Proof.
  rewrite getPriorityColor_cases.
  pose proof (ge_finite q 5) as H5. pose proof (ge_finite_false q 5) as H5'.
  pose proof (ge_finite q 2) as H2. pose proof (ge_finite_false q 2) as H2'.
  change (inject_Z 5) with 5%Q in *. change (inject_Z 2) with 2%Q in *.
  destruct (ge (Num (Finite q)) (num_of_Z 5)) eqn:E5.
  - assert (5 <= q)%Q as Hq by (apply H5; reflexivity).
    assert (2 <= q)%Q as Hq2
        by (apply Qle_trans with (y := 5%Q); [discriminate | exact Hq]).
    settle_order.
  - assert (q < 5)%Q as Hq by (apply H5'; reflexivity).
    destruct (ge (Num (Finite q)) (num_of_Z 2)) eqn:E2.
    + assert (2 <= q)%Q as Hq2 by (apply H2; reflexivity).
      settle_order.
    + assert (q < 2)%Q as Hq2 by (apply H2'; reflexivity).
      settle_order.
Qed.

(** C1. For every real score [q]: red exactly from 5 up, orange exactly
    from 2 up to 5 excluded, green exactly below 2; the infinities fall on
    the sides their order gives them; and a missing score (undefined) is
    classified as 0 is, green. *)
Theorem getPriorityColor_thresholds :
  (forall q : Q,
      (getPriorityColor (Num (Finite q)) = "red" <-> (5 <= q)%Q) /\
      (getPriorityColor (Num (Finite q)) = "orange"
         <-> (2 <= q)%Q /\ (q < 5)%Q) /\
      (getPriorityColor (Num (Finite q)) = "green" <-> (q < 2)%Q)) /\
  getPriorityColor (Num PosInfinity) = "red" /\
  getPriorityColor (Num NegInfinity) = "green" /\
  getPriorityColor Undefined = getPriorityColor (num_of_Z 0) /\
  getPriorityColor Undefined = "green".
Proof.
  split; [exact getPriorityColor_finite |].
  repeat split; reflexivity.
Qed.

(** C7. The classifier is total: every score, real or not, gets one of
    the three tags red, orange, green, each of which is reached; and it is
    a function of its input: equal scores get equal tags. *)
Theorem getPriorityColor_total :
  (forall score : prim,
      getPriorityColor score = "red" \/
      getPriorityColor score = "orange" \/
      getPriorityColor score = "green") /\
  (getPriorityColor (num_of_Z 5) = "red" /\
   getPriorityColor (num_of_Z 2) = "orange" /\
   getPriorityColor (num_of_Z 0) = "green") /\
  (forall a b : prim, a = b -> getPriorityColor a = getPriorityColor b).
Proof.
  split; [| split].
  - intros score. rewrite getPriorityColor_cases.
    destruct (ge score (num_of_Z 5)); [now left |].
    destruct (ge score (num_of_Z 2)); [right; now left | right; now right].
  - repeat split; reflexivity.
  - intros a b ->. reflexivity.
Qed.

(** A score that is not a number is classified as undefined is. *)
Lemma getPriorityColor_NaN : getPriorityColor (Num NaN) = "green".
Proof. reflexivity. Qed.

(** ** The style mapper *)

(** On a number or a missing score, [||] and [??] lead to the same colour:
    they differ on NaN and on zero only, which are green either way. *)
Lemma or_else_as_nullish (score : prim) :
  score = Undefined \/ (exists n, score = Num n) ->
  getPriorityColor (or_else score (num_of_Z 0))
  = getPriorityColor (nullish_else score (num_of_Z 0)).
Proof.
  intros [-> | [n ->]]; [reflexivity |].
  destruct n as [| | q |]; try reflexivity.
  unfold or_else; simpl. destruct (is_zero q) eqn:Hz; [| reflexivity].
  simpl. symmetry.
  apply Z.eqb_eq in Hz.
  assert (q < 2)%Q as Hlt by (unfold Qlt; simpl; rewrite Hz; lia).
  apply getPriorityColor_finite. exact Hlt.
Qed.

(** C2. When the score of a feature is a number or is missing, stylePoints
    returns the record with radius 8, stroke #000 of weight 1, opacity 1,
    fill opacity 0.8, and as fill colour the class of [score ?? 0]; a
    missing score gives green. *)
Theorem stylePoints_record (feature : Feature) (score : prim) :
  Get (properties feature) "prioridade_score" = Ok score ->
  score = Undefined \/ (exists n, score = Num n) ->
  stylePoints feature
  = Ok {| radius := 8;
          fillColor := getPriorityColor (nullish_else score (num_of_Z 0));
          color := "#000";
          weight := 1;
          opacity := 1;
          fillOpacity := 8 # 10 |}
  /\ (score = Undefined ->
      fillColor <$> stylePoints feature = Ok "green").
Proof.
  intros Hget Hscore. unfold stylePoints. rewrite Hget. simpl.
  rewrite (or_else_as_nullish score Hscore).
  split; [reflexivity |]. intros ->. reflexivity.
Qed.

(** ** Occurrences in a text *)

Lemma append_assoc (a b c : string) : (a +:+ b) +:+ c = a +:+ b +:+ c.
Proof.
  induction a as [| x a IH]; [reflexivity |].
  change (String x ((a +:+ b) +:+ c) = String x (a +:+ b +:+ c)).
  now rewrite IH.
Qed.

Lemma length_append (a b : string) :
  String.length (a +:+ b) = (String.length a + String.length b)%nat.
Proof.
  induction a as [| x a IH]; [reflexivity |].
  change (S (String.length (a +:+ b))
          = S (String.length a + String.length b)).
  now rewrite IH.
Qed.

(** Appending a text that is not empty gives another text. *)
Lemma append_grows (a b : string) : b <> EmptyString -> a +:+ b <> a.
Proof.
  intros Hb Heq. apply (f_equal String.length) in Heq.
  rewrite length_append in Heq.
  destruct b as [| x b]; [congruence |]. cbn [String.length] in Heq. lia.
Qed.

Lemma substring_self (needle rest : string) :
  substring 0 (String.length needle) (needle +:+ rest) = needle.
Proof.
  induction needle as [| c needle IH]; simpl.
  - destruct rest; reflexivity.
  - now rewrite IH.
Qed.

(** A text includes what it starts with. *)
Lemma includes_prefix (needle rest : string) :
  needle <> EmptyString -> includes (needle +:+ rest) needle = true.
Proof.
  intros Hne. unfold includes.
  destruct needle as [| c needle]; [congruence |].
  assert (String.prefix (String c needle) (String c needle +:+ rest) = true) as Hp
      by (apply String.prefix_correct, substring_self).
  change (String c needle +:+ rest) with (String c (needle +:+ rest)) in *.
  cbn [index]. now rewrite Hp.
Qed.

(** A text includes what its end includes. *)
Lemma includes_app_r (before text needle : string) :
  includes text needle = true -> includes (before +:+ text) needle = true.
Proof.
  unfold includes. intros H.
  induction before as [| c before IH]; [exact H |].
  change (String c before +:+ text) with (String c (before +:+ text)).
  cbn [index].
  destruct (String.prefix needle (String c (before +:+ text))); [reflexivity |].
  destruct (index 0 needle (before +:+ text)); [reflexivity | discriminate].
Qed.

(** ** The popup builder *)

Lemma Get_object (o : gmap string prim) (name : string) :
  Get (VObject o) name = Ok (default Undefined (o !! name)).
Proof. reflexivity. Qed.

(** C5. For the properties object with no field at all, the popup reads
    N/A for the type, the description, the intensity, the origin and the
    status, and 0 for the priority. *)
Theorem popupContent_empty :
  exists content : string,
    popupContent (VObject ∅) = Ok content /\
    includes content "<b>Tipo:</b> N/A<br>" = true /\
    includes content "<b>Descrição:</b> N/A<br>" = true /\
    includes content "<b>Intensidade:</b> N/A<br>" = true /\
    includes content "<b>Origem:</b> N/A<br>" = true /\
    includes content "<b>Status:</b> N/A<br>" = true /\
    includes content "<b>Prioridade:</b> 0<br>" = true.
Proof.
  eexists. split; [vm_compute; reflexivity |].
  repeat split; vm_compute; reflexivity.
Qed.

(** The image element is an image reference. *)
Lemma photo_img_includes (foto_url : prim) :
  includes (photo_img foto_url) "<img src=" = true.
Proof. unfold photo_img. now apply includes_prefix. Qed.

(** C6, amended. The image element is appended exactly when the photo URL
    is truthy (present and not null, false, zero, NaN or the empty string):
    then the popup is the popup of the same properties without the photo,
    followed by the image element, which it thus includes; otherwise it is
    that popup unchanged. *)
Theorem popupContent_photo (o : gmap string prim) :
  exists base : string,
    popupContent (VObject (delete "foto_url" o)) = Ok base /\
    popupContent (VObject o)
    = Ok (if ToBoolean (default Undefined (o !! "foto_url"))
          then base +:+ photo_img (default Undefined (o !! "foto_url"))
          else base) /\
    (popupContent (VObject o)
     = Ok (base +:+ photo_img (default Undefined (o !! "foto_url")))
     <-> ToBoolean (default Undefined (o !! "foto_url")) = true) /\
    (ToBoolean (default Undefined (o !! "foto_url")) = true ->
     (content ← popupContent (VObject o);
      Ok (includes content "<img src=")) = Ok true).
Proof.
  unfold popupContent. rewrite !Get_object.
  rewrite lookup_delete_eq, !lookup_delete_ne by discriminate.
  cbn [mbind result_bind default ToBoolean].
  eexists. split; [reflexivity |].
  destruct (ToBoolean (default Undefined (o !! "foto_url"))).
  - split; [reflexivity |]. split; [split; reflexivity |].
    intros _. cbn [mbind result_bind]. f_equal.
    apply includes_app_r, photo_img_includes.
  - split; [reflexivity |]. split; [| discriminate].
    split; [| discriminate].
    intros Heq. injection Heq as Heq. symmetry in Heq.
    now apply append_grows in Heq.
Qed.

(** ** Features without properties *)

Lemma popupContent_ok (props : value) :
  ToBoolean_value props = true ->
  exists content, popupContent props = Ok content.
Proof.
  intros Htrue. unfold popupContent.
  destruct props as [p | o].
  - destruct p; try discriminate; cbn [Get mbind result_bind ToBoolean];
      eexists; reflexivity.
  - rewrite !Get_object. cbn [mbind result_bind].
    destruct (ToBoolean (default Undefined (o !! "foto_url")));
      eexists; reflexivity.
Qed.

Lemma onEachFeature_ok (feature : Feature) (layer : Marker) :
  exists layer', onEachFeature feature layer = Ok layer'.
Proof.
  unfold onEachFeature.
  destruct (ToBoolean_value (properties feature)) eqn:Htrue;
    [| eexists; reflexivity].
  destruct (popupContent_ok _ Htrue) as [content ->].
  eexists. reflexivity.
Qed.

Lemma stylePoints_throws_iff (feature : Feature) :
  (exists e, stylePoints feature = Throw e)
  <-> lacks_properties feature = true.
Proof.
  unfold lacks_properties, stylePoints.
  destruct (properties feature) as [[] |]; split;
    try discriminate; try reflexivity;
    try (intros [e He]; discriminate); intros _; eexists; reflexivity.
Qed.

(** C9. stylePoints throws exactly on a feature that lacks a properties
    object (the member is missing or null): there it raises a TypeError,
    while onEachFeature returns the layer as it got it, with no popup
    bound; on a feature that carries a properties object stylePoints
    returns a style record; and onEachFeature never throws. *)
Theorem stylePoints_unguarded (feature : Feature) (layer : Marker) :
  (lacks_properties feature = true ->
     (exists message, stylePoints feature = Throw (TypeError message)) /\
     onEachFeature feature layer = Ok layer) /\
  (forall o, properties feature = VObject o ->
     exists style, stylePoints feature = Ok style) /\
  ((exists e, stylePoints feature = Throw e)
     <-> lacks_properties feature = true) /\
  (exists layer', onEachFeature feature layer = Ok layer').
Proof.
  unfold lacks_properties, stylePoints, onEachFeature.
  destruct feature as [props at_]; cbn [properties].
  repeat split.
  - destruct props as [[] |]; try discriminate; eexists; reflexivity.
  - destruct props as [[] |]; try discriminate; reflexivity.
  - intros o ->. eexists. reflexivity.
  - intros [e He]. destruct props as [[] |]; try discriminate; reflexivity.
  - intros H. destruct props as [[] |]; try discriminate; eexists; reflexivity.
  - apply (onEachFeature_ok {| properties := props; latlng := at_ |}).
Qed.

(** ** The date of the report *)

(** A string that Date.parse does not read, a number that is NaN,
    infinite or beyond the range of time values: no date. *)
Lemma Date_new_invalid :
  (forall s, Date_parse s = None -> Date_new (Str s) = None) /\
  Date_new Undefined = None /\
  Date_new (Num NaN) = None /\
  Date_new (Num PosInfinity) = None /\
  Date_new (Num NegInfinity) = None.
Proof. repeat split. intros s Hs. exact Hs. Qed.

(** Null is read as the number 0, the epoch: a valid date. *)
Lemma Date_new_null : Date_new Null = Some 0%Z.
Proof. reflexivity. Qed.

(** C10, amended. When the submission date is missing, or is a value of
    which new Date makes an invalid date (a string that Date.parse does not
    read, NaN, a number that is infinite or beyond the range of time
    values), the popup does not fall back on N/A: its line for the date
    carries the rendering of an invalid date. *)
Theorem popupContent_invalid_date (o : gmap string prim) :
  (o !! "data_submissao" = None \/
   Date_new (default Undefined (o !! "data_submissao")) = None) ->
  toLocaleString (Date_new (default Undefined (o !! "data_submissao")))
  = "Invalid Date" /\
  toLocaleString (Date_new (default Undefined (o !! "data_submissao")))
  <> "N/A" /\
  exists content : string,
    popupContent (VObject o) = Ok content /\
    includes content "<b>Reportado em:</b> Invalid Date<br>" = true.
Proof.
  intros Hdate.
  assert (toLocaleString
            (Date_new (default Undefined (o !! "data_submissao")))
          = "Invalid Date") as Hinv.
  { destruct Hdate as [-> | ->]; reflexivity. }
  split; [exact Hinv |]. split; [rewrite Hinv; discriminate |].
  unfold popupContent. rewrite !Get_object. cbn [mbind result_bind].
  rewrite Hinv.
  assert (forall rest : string,
             includes
               ("            <b>Reportado em:</b> " +:+ "Invalid Date"
                  +:+ "<br>" +:+ rest)
               "<b>Reportado em:</b> Invalid Date<br>" = true) as Hline.
  { intros rest.
    change ("            <b>Reportado em:</b> " +:+ "Invalid Date"
              +:+ "<br>" +:+ rest)
      with ("            "
              +:+ "<b>Reportado em:</b> Invalid Date<br>" +:+ rest).
    apply includes_app_r, includes_prefix. discriminate. }
  destruct (ToBoolean (default Undefined (o !! "foto_url")));
    eexists; (split; [reflexivity |]).
  - rewrite !append_assoc.
    do 25 (apply includes_app_r). apply Hline.
  - do 25 (apply includes_app_r). apply Hline.
Qed.

(** ** The fetch chain *)

Lemma main_loaded (c : Config) (settles : result Response) :
  main settles (boot (Some c)) = load_leaks settles (mapped c).
Proof. reflexivity. Qed.

Lemma page_after_rejected (c : Config) (e : error) :
  page_after c (Throw e) = failed c e.
Proof. reflexivity. Qed.

Lemma page_after_not_ok (c : Config) (response : Response) :
  ok response = false ->
  page_after c (Ok response)
  = failed c (Error ("Erro HTTP! Status: "
                       +:+ ToString (num_of_Z (status response)))).
Proof.
  intros Hok. unfold page_after. rewrite main_loaded.
  unfold load_leaks, catch, mbind, script_bind, read_config, fetch.
  cbn [global_config mapped]. rewrite Hok. reflexivity.
Qed.

Lemma page_after_unparsed (c : Config) (response : Response) (e : error) :
  ok response = true -> json response = Throw e ->
  page_after c (Ok response) = failed c e.
Proof.
  intros Hok Hjson. unfold page_after. rewrite main_loaded.
  unfold load_leaks, catch, mbind, script_bind, read_config, fetch.
  cbn [global_config mapped]. rewrite Hok, Hjson. reflexivity.
Qed.

Lemma page_after_malformed (c : Config) (response : Response) :
  ok response = true -> json response = Ok Malformed ->
  page_after c (Ok response) = failed c (Error "Invalid GeoJSON object.").
Proof.
  intros Hok Hjson. unfold page_after. rewrite main_loaded.
  unfold load_leaks, catch, mbind, script_bind, read_config, fetch.
  cbn [global_config mapped]. rewrite Hok, Hjson. reflexivity.
Qed.

Lemma page_after_parsed (c : Config) (response : Response)
      (fs : list Feature) :
  ok response = true -> json response = Ok (FeatureCollection fs) ->
  page_after c (Ok response)
  = match geoJSON_features geoJSON_options fs with
    | Ok ms => rendered c ms
    | Throw e => failed c e
    end.
Proof.
  intros Hok Hjson. unfold page_after. rewrite main_loaded.
  unfold load_leaks, catch, mbind, script_bind, read_config, fetch.
  cbn [global_config mapped]. rewrite Hok, Hjson.
  cbn [negb lift geoJSON]. unfold mbind at 1, result_bind at 1.
  destruct (geoJSON_features geoJSON_options fs); reflexivity.
Qed.

(** Leaflet makes one marker per feature, or none at all. *)
Lemma geoJSON_features_length (fs : list Feature) (ms : list Marker) :
  geoJSON_features geoJSON_options fs = Ok ms -> length ms = length fs.
Proof.
  revert ms. induction fs as [| f fs IH]; intros ms H.
  - injection H as <-. reflexivity.
  - cbn [geoJSON_features] in H.
    destruct (pointToLayer geoJSON_options f (latlng f)) as [m |];
      [| discriminate].
    cbn [mbind result_bind] in H.
    destruct (onEachFeature_option geoJSON_options f m) as [m' |];
      [| discriminate].
    cbn [mbind result_bind] in H.
    destruct (geoJSON_features geoJSON_options fs) as [ms' |];
      [| discriminate].
    cbn [mbind result_bind] in H. injection H as <-.
    cbn [length]. now rewrite (IH ms' eq_refl).
Qed.

(** When every feature carries a properties object, no callback throws. *)
Lemma geoJSON_features_ok (fs : list Feature) :
  all_have_properties fs = true ->
  exists ms, geoJSON_features geoJSON_options fs = Ok ms.
Proof.
  induction fs as [| f fs IH]; intros Hall; [eexists; reflexivity |].
  cbn [all_have_properties forallb] in Hall.
  apply andb_prop in Hall as [Hf Hfs].
  destruct (IH Hfs) as [ms Hms].
  cbn [geoJSON_features geoJSON_options pointToLayer onEachFeature_option].
  destruct (stylePoints f) as [style | e] eqn:Hstyle.
  2: { apply negb_true_iff in Hf.
       rewrite (proj1 (stylePoints_throws_iff f)) in Hf by eauto.
       discriminate. }
  cbn [mbind result_bind].
  destruct (onEachFeature_ok f (circleMarker (latlng f) style)) as [m' ->].
  cbn [mbind result_bind]. rewrite Hms. eexists. reflexivity.
Qed.

(** [response.ok] is false exactly off the range 200-299. *)
Lemma ok_false_iff (response : Response) :
  ok response = false
  <-> (status response < 200 \/ 299 < status response)%Z.
Proof. unfold ok. rewrite andb_false_iff, !Z.leb_gt. reflexivity. Qed.

(** An integer status prints in decimal. *)
Lemma ToString_integer (z : Z) :
  (0 <= z <= 2 ^ 53)%Z -> ToString (num_of_Z z) = pretty z.
Proof.
  intros Hz. unfold ToString, num_of_Z, Number_toString, is_zero.
  cbn [inject_Z Qnum].
  destruct (Z.eqb_spec z 0) as [-> | Hnz]; [reflexivity |].
  destruct (Z.ltb_spec z 0) as [Hneg | _]; [lia |].
  unfold positive_toString, safe_integer. cbn [inject_Z Qnum Qden].
  rewrite Z.mod_1_r, Z.div_1_r, Z.eqb_refl.
  destruct (Z.leb_spec (Z.abs z) (2 ^ 53)) as [_ | Hbig]; [reflexivity | lia].
Qed.

Lemma caught (c : Config) (settles : result Response) :
  snd (main settles (boot (Some c))) = Ok tt.
Proof.
  rewrite main_loaded.
  unfold load_leaks, catch, mbind, script_bind, read_config, fetch.
  cbn [global_config mapped].
  destruct settles as [response |]; [| reflexivity].
  destruct (ok response); cbn [negb]; [| reflexivity].
  unfold lift. destruct (json response) as [data |]; [| reflexivity].
  destruct data as [| fs]; [reflexivity |].
  cbn [geoJSON]. unfold mbind at 1, result_bind at 1.
  destruct (geoJSON_features geoJSON_options fs); reflexivity.
Qed.

(** C3. When the request settles with a status outside 200-299, the chain
    raises the error whose message ends with the status; the error is
    caught: it is logged to the console, one alert is shown and no more,
    the map holds its base layer alone, so no marker, and the script ends
    normally. *)
Theorem http_error_reported (c : Config) (response : Response) :
  ok response = false ->
  console (page_after c (Ok response))
  = [ConsoleError "Erro ao carregar dados WFS:"
       (Some (Error ("Erro HTTP! Status: "
                       +:+ ToString (num_of_Z (status response)))))] /\
  ((0 <= status response <= 999)%Z ->
   ToString (num_of_Z (status response)) = pretty (status response)) /\
  alerts (page_after c (Ok response))
  = ["Não foi possível carregar os dados de vazamentos. Verifique a URL do WFS e o servidor."] /\
  map_layers (page_after c (Ok response))
  = [TileLayer (osmTileUrl c) (osmAttribution c) 19] /\
  markers_on_map (page_after c (Ok response)) = [] /\
  snd (main (Ok response) (boot (Some c))) = Ok tt.
Proof.
  intros Hok. rewrite (page_after_not_ok c response Hok).
  repeat split; try reflexivity.
  - intros Hstatus. apply ToString_integer. lia.
  - apply caught.
Qed.

(** What the page can be once the request has settled: a failure, or the
    markers of the whole collection. *)
Lemma page_after_cases (c : Config) (settles : result Response) :
  (exists e, page_after c settles = failed c e) \/
  (exists fs ms,
      loaded settles fs /\
      geoJSON_features geoJSON_options fs = Ok ms /\
      page_after c settles = rendered c ms).
Proof.
  destruct settles as [response | e];
    [| left; exists e; apply page_after_rejected].
  destruct (ok response) eqn:Hok;
    [| left; eexists; apply page_after_not_ok; exact Hok].
  destruct (json response) as [data | e] eqn:Hjson;
    [| left; exists e; apply page_after_unparsed; assumption].
  destruct data as [| fs];
    [left; eexists; apply page_after_malformed; assumption |].
  rewrite (page_after_parsed c response fs Hok Hjson).
  destruct (geoJSON_features geoJSON_options fs) as [ms | e] eqn:Hms;
    [right | left; eexists; reflexivity].
  exists fs, ms.
  split; [exists response; auto | split; [exact Hms | reflexivity]].
Qed.

(** When the marker layer reaches the map, for bodies made of Point
    features.  A marker layer is on the map only if the request succeeded
    and Leaflet accepted its body, and it then holds one marker for each
    Point feature; after a transport, HTTP or parsing failure the map holds
    its base layer alone, so no marker, and the alert is shown; after a
    success in which every Point feature carries a properties object, the
    map holds, after the base layer, one marker layer with a marker for
    each of them, added in one step, and nothing is alerted. *)
Theorem markers_only_after_success (c : Config)
        (settles : result Response) :
  (forall ms,
      In (GeoJSONLayer ms) (map_layers (page_after c settles)) ->
      exists fs, loaded settles fs /\ length ms = length fs) /\
  ((forall fs, ~ loaded settles fs) ->
   map_layers (page_after c settles)
   = [TileLayer (osmTileUrl c) (osmAttribution c) 19] /\
   markers_on_map (page_after c settles) = [] /\
   length (alerts (page_after c settles)) = 1%nat) /\
  (forall fs,
      loaded settles fs -> all_have_properties fs = true ->
      exists ms,
        map_layers (page_after c settles)
        = [TileLayer (osmTileUrl c) (osmAttribution c) 19; GeoJSONLayer ms]
        /\ markers_on_map (page_after c settles) = ms
        /\ length ms = length fs
        /\ alerts (page_after c settles) = []).
Proof.
  split; [| split].
  - intros ms Hin.
    destruct (page_after_cases c settles)
      as [[e Hpage] | (fs & ms' & Hloaded & Hms & Hpage)];
      rewrite Hpage in Hin; cbn in Hin.
    + destruct Hin as [Hin | []]. discriminate.
    + destruct Hin as [Hin | [Hin | []]]; [discriminate |].
      injection Hin as <-. exists fs. split; [exact Hloaded |].
      now apply geoJSON_features_length.
  - intros Hnot.
    destruct (page_after_cases c settles)
      as [[e Hpage] | (fs & ms' & Hloaded & _)];
      [| now destruct (Hnot fs)].
    rewrite Hpage. repeat split; reflexivity.
  - intros fs (response & -> & Hok & Hjson) Hall.
    rewrite (page_after_parsed c response fs Hok Hjson).
    destruct (geoJSON_features_ok fs Hall) as [ms Hms]. rewrite Hms.
    exists ms. repeat split; try reflexivity.
    + unfold markers_on_map. cbn. apply app_nil_r.
    + now apply geoJSON_features_length.
Qed.

(** ** The configuration *)

Lemma preserves_bind {A B : Type} (m : Script A) (f : A -> Script B) :
  preserves_config m -> (forall a, preserves_config (f a)) ->
  preserves_config (m ≫= f).
Proof.
  intros Hm Hf w. unfold mbind, script_bind.
  specialize (Hm w). destruct (m w) as [w' [a | e]]; cbn [fst] in *.
  - now rewrite Hf.
  - exact Hm.
Qed.

Lemma preserves_catch {A : Type} (m : Script A) (h : error -> Script A) :
  preserves_config m -> (forall e, preserves_config (h e)) ->
  preserves_config (catch m h).
Proof.
  intros Hm Hh w. unfold catch.
  specialize (Hm w). destruct (m w) as [w' [a | e]]; cbn [fst] in *.
  - exact Hm.
  - now rewrite Hh.
Qed.

(** Reading [config], failing and returning do not write at all. *)
Lemma preserves_reads :
  preserves_config read_config /\
  preserves_config config_is_undefined /\
  (forall A (e : error), preserves_config (throw (A := A) e)) /\
  (forall A (r : result A), preserves_config (lift r)) /\
  (forall A (a : A), preserves_config (mret a)).
Proof.
  repeat split; intros w; try reflexivity.
  unfold read_config.
  destruct (global_config w) eqn:E; cbn [fst]; exact E.
Qed.

(** Each operation on the page leaves [config] alone. *)
Lemma preserves_primitives :
  (forall message detail, preserves_config (console_error message detail)) /\
  (forall message, preserves_config (console_log message)) /\
  (forall message, preserves_config (alert message)) /\
  (forall center zoom, preserves_config (map_setView center zoom)) /\
  (forall layer, preserves_config (addTo_map layer)) /\
  (forall url settles, preserves_config (fetch url settles)).
Proof. repeat split. Qed.

Lemma load_leaks_preserves (settles : result Response) :
  preserves_config (load_leaks settles).
Proof.
  destruct preserves_primitives as (Herr & Hlog & Halert & _ & Hadd & Hfetch).
  destruct preserves_reads as (Hread & _ & Hthrow & Hlift & _).
  unfold load_leaks.
  apply preserves_bind; [apply Hread | intros config'].
  apply preserves_catch.
  - apply preserves_bind; [apply Hfetch | intros response].
    apply preserves_bind.
    + destruct (negb (ok response)); [apply Hthrow | apply Hlift].
    + intros data. apply preserves_bind; [apply Hlift |].
      intros layer. apply preserves_bind; [apply Hadd | intros _; apply Hlog].
  - intros e. apply preserves_bind; [apply Herr | intros _; apply Halert].
Qed.

Lemma main_preserves (settles : result Response) :
  preserves_config (main settles).
Proof.
  destruct preserves_primitives as (Herr & _ & _ & Hview & Hadd & _).
  destruct preserves_reads as (Hread & Hundef & _ & _ & Hret).
  unfold main.
  apply preserves_bind; [apply Hundef | intros undefined].
  apply preserves_bind.
  { destruct undefined; [apply Herr | apply Hret]. }
  intros _.
  apply preserves_bind; [apply Hread | intros c1].
  apply preserves_bind; [apply Hview | intros _].
  apply preserves_bind; [apply Hread | intros c2].
  apply preserves_bind; [apply Hadd | intros _].
  apply load_leaks_preserves.
Qed.

(** C8. Nothing writes the configuration: each operation the script
    performs on the page leaves the global [config] as it was, and so do
    the fetch chain and the whole script, whatever the request settles to;
    after the run, the six fields hold the values config.js gave them. *)
Theorem config_never_mutated (settles : result Response) :
  ((forall message detail, preserves_config (console_error message detail)) /\
   (forall message, preserves_config (console_log message)) /\
   (forall message, preserves_config (alert message)) /\
   (forall center zoom, preserves_config (map_setView center zoom)) /\
   (forall layer, preserves_config (addTo_map layer)) /\
   (forall url, preserves_config (fetch url settles))) /\
  preserves_config (load_leaks settles) /\
  preserves_config (main settles) /\
  global_config (page_after config settles) = Some config /\
  global_config (page_after config settles)
  = Some {| osmTileUrl :=
              "https://{s}.tile.openstreetmap.org/{z}/{x}/{y}.png";
            osmAttribution :=
              "&copy; <a href=" +:+ dquote
                +:+ "https://www.openstreetmap.org/copyright" +:+ dquote
                +:+ ">OpenStreetMap</a> contributors";
            wfsServiceUrl := wfsServiceUrl config;
            centerLat := - (235505 # 10000);
            centerLon := - (466333 # 10000);
            defaultZoom := 12 |}.
Proof.
  assert (global_config (page_after config settles) = Some config) as Hend
      by (unfold page_after; now rewrite main_preserves).
  repeat split; try exact Hend.
  - apply load_leaks_preserves.
  - apply main_preserves.
Qed.

(** ** Two inputs on which the popup and the render stop short *)

(** A photo URL that is present but empty: no image. *)
Lemma empty_photo_url_popup :
  (content ← popupContent (VObject {[ "foto_url" := Str "" ]});
   Ok (includes content "<img")) = Ok false.
Proof. vm_compute. reflexivity. Qed.

(** A feature whose properties member is null, as GeoJSON allows: the
    style mapper throws in the middle of the render. *)
Lemma null_properties_page (c : Config) (response : Response) (at_ : LatLng) :
  ok response = true ->
  json response
  = Ok (FeatureCollection [{| properties := VPrim Null; latlng := at_ |}]) ->
  page_after c (Ok response)
  = failed c (cannot_read "null" "prioridade_score").
Proof.
  intros Hok Hjson. now rewrite (page_after_parsed c response _ Hok Hjson).
Qed.

(** ** Further properties of the classifier and of the style mapper *)

(** The severity a colour stands for. *)
Definition priority_rank (colour : string) : nat :=
  if String.eqb colour "red" then 2
  else if String.eqb colour "orange" then 1
  else 0.

(** X9. Raising a score never lowers its class: on real scores the
    classifier is monotone, from green through orange to red. *)
Theorem getPriorityColor_monotone (q1 q2 : Q) :
  (q1 <= q2)%Q ->
  priority_rank (getPriorityColor (Num (Finite q1)))
  <= priority_rank (getPriorityColor (Num (Finite q2))).
Proof.
  intros Hle. rewrite !getPriorityColor_cases.
  destruct (ge (Num (Finite q2)) (num_of_Z 5)) eqn:E5.
  { destruct (ge (Num (Finite q1)) (num_of_Z 5));
      [| destruct (ge (Num (Finite q1)) (num_of_Z 2))]; cbn; lia. }
  apply ge_finite_false in E5.
  assert (ge (Num (Finite q1)) (num_of_Z 5) = false) as ->
      by (apply ge_finite_false; exact (Qle_lt_trans _ _ _ Hle E5)).
  destruct (ge (Num (Finite q2)) (num_of_Z 2)) eqn:E2.
  { destruct (ge (Num (Finite q1)) (num_of_Z 2)); cbn; lia. }
  apply ge_finite_false in E2.
  assert (ge (Num (Finite q1)) (num_of_Z 2) = false) as ->
      by (apply ge_finite_false; exact (Qle_lt_trans _ _ _ Hle E2)).
  cbn. lia.
Qed.

(** A score and the number it converts to are classified alike. *)
Lemma getPriorityColor_ToNumber (score : prim) :
  getPriorityColor score = getPriorityColor (Num (ToNumber score)).
Proof. destruct score as [| | [] | n | s]; reflexivity. Qed.

(** X8. Whatever scalar the score is, stylePoints returns the same record
    but for the fill colour: a falsy score (missing, null, false, 0, NaN,
    the empty string) is green, as 0 is, and any other score is classified
    by the number it converts to, a string by its numeric value. *)
Theorem stylePoints_any_score (feature : Feature) (score : prim) :
  Get (properties feature) "prioridade_score" = Ok score ->
  stylePoints feature
  = Ok {| radius := 8;
          fillColor := if ToBoolean score
                       then getPriorityColor (Num (ToNumber score))
                       else "green";
          color := "#000";
          weight := 1;
          opacity := 1;
          fillOpacity := 8 # 10 |}.
Proof.
  intros Hget. unfold stylePoints. rewrite Hget. cbn [mbind result_bind].
  unfold or_else. destruct (ToBoolean score); [| reflexivity].
  now rewrite (getPriorityColor_ToNumber score).
Qed.

(** ** Further properties of the popup *)

(** The properties the popup builder reads. *)
Definition popup_fields : list string :=
  ["tipo_vazamento"; "descricao_detalhes"; "intensidade_vazamento";
   "origem_vazamento"; "prioridade_score"; "status"; "data_submissao";
   "foto_url"].

(** The lines of the popup that fall back on N/A: label and property. *)
Definition text_fields : list (string * string) :=
  [("Tipo", "tipo_vazamento"); ("Descrição", "descricao_detalhes");
   ("Intensidade", "intensidade_vazamento"); ("Origem", "origem_vazamento");
   ("Status", "status")].

(** X10. The popup and the style show nothing else of a feature: two
    properties objects that agree on the eight properties the template
    names give the same popup, and two that agree on the score give the
    same style. *)
Theorem popupContent_reads_only (o1 o2 : gmap string prim) :
  ((forall name, In name popup_fields -> o1 !! name = o2 !! name) ->
   popupContent (VObject o1) = popupContent (VObject o2)) /\
  (o1 !! "prioridade_score" = o2 !! "prioridade_score" ->
   forall at_ : LatLng,
     stylePoints {| properties := VObject o1; latlng := at_ |}
     = stylePoints {| properties := VObject o2; latlng := at_ |}).
Proof.
  split.
  - intros Hsame. unfold popupContent. rewrite !Get_object.
    rewrite !Hsame by (cbn; tauto). reflexivity.
  - intros Hsame at_. unfold stylePoints. cbn [properties].
    rewrite !Get_object, Hsame. reflexivity.
Qed.

(** A line of the template, found behind its indentation. *)
Lemma includes_line (indent label shown rest : string) :
  includes ((indent +:+ label) +:+ shown +:+ "<br>" +:+ rest)
           (label +:+ shown +:+ "<br>") = true.
Proof.
  assert ((indent +:+ label) +:+ shown +:+ "<br>" +:+ rest
          = indent +:+ (label +:+ shown +:+ "<br>") +:+ rest) as ->
      by now rewrite !append_assoc.
  apply includes_app_r, includes_prefix.
  intros Hempty. apply (f_equal String.length) in Hempty.
  rewrite !length_append in Hempty. cbn in Hempty. lia.
Qed.

(** Finds the line of [label] in the text of a popup. *)
Ltac line_here label :=
  match goal with
  | |- includes (?lit +:+ ?shown +:+ "<br>" +:+ ?rest) _ = true =>
      change (includes (("            " +:+ label) +:+ shown +:+ "<br>" +:+ rest)
                       (label +:+ shown +:+ "<br>") = true);
      apply includes_line
  end.

Ltac find_line label :=
  first [ line_here label | apply includes_app_r; find_line label ].

(** What a truthy string is shown as. *)
Lemma ToString_or_else_string (s : string) (other : prim) :
  s <> EmptyString -> ToString (or_else (Str s) other) = s.
Proof.
  intros Hs. unfold or_else. cbn [ToBoolean].
  apply String.eqb_neq in Hs. now rewrite Hs.
Qed.

Lemma ToString_or_else_falsy (v other : prim) :
  ToBoolean v = false -> ToString (or_else v other) = ToString other.
Proof. intros Hv. unfold or_else. now rewrite Hv. Qed.

(** X11. The popup does not escape what it shows: a property that holds a
    string that is not empty appears as it is on its line, markup
    included, and a photo URL that is such a string appears as it is in
    the src attribute of the image. *)
Theorem popupContent_verbatim (o : gmap string prim) (s : string) :
  s <> EmptyString ->
  (forall label key,
      In (label, key) text_fields -> o !! key = Some (Str s) ->
      exists content : string,
        popupContent (VObject o) = Ok content /\
        includes content ("<b>" +:+ label +:+ ":</b> " +:+ s +:+ "<br>")
        = true) /\
  (o !! "foto_url" = Some (Str s) ->
   exists content : string,
     popupContent (VObject o) = Ok content /\
     includes content ("<img src=" +:+ dquote +:+ s +:+ dquote) = true).
Proof.
  intros Hs. split.
  - intros label key Hfield Hkey.
    unfold popupContent. rewrite !Get_object. cbn [mbind result_bind].
    cbn [text_fields In] in Hfield.
    destruct Hfield as [H | [H | [H | [H | [H | []]]]]];
      injection H as <- <-; rewrite Hkey; cbn [default];
      rewrite (ToString_or_else_string s) by exact Hs;
      destruct (ToBoolean (default Undefined (o !! "foto_url")));
      eexists; (split; [reflexivity |]); rewrite ?append_assoc.
    all: first [ find_line "<b>Tipo:</b> "
               | find_line "<b>Descrição:</b> "
               | find_line "<b>Intensidade:</b> "
               | find_line "<b>Origem:</b> "
               | find_line "<b>Status:</b> " ].
  - intros Hkey.
    unfold popupContent. rewrite !Get_object. cbn [mbind result_bind].
    rewrite Hkey. change (default Undefined (Some (Str s))) with (Str s).
    cbn [ToBoolean]. apply String.eqb_neq in Hs. rewrite Hs. cbn [negb].
    eexists. split; [reflexivity |].
    apply includes_app_r. unfold photo_img. cbn [ToString].
    assert ("<img src=" +:+ dquote +:+ s +:+ dquote +:+ " alt=" +:+ dquote
              +:+ "Foto do Vazamento" +:+ dquote +:+ " style=" +:+ dquote
              +:+ "max-width:200px; height:auto; margin-top: 10px;"
              +:+ dquote +:+ ">"
            = ("<img src=" +:+ dquote +:+ s +:+ dquote)
                +:+ " alt=" +:+ dquote +:+ "Foto do Vazamento" +:+ dquote
                +:+ " style=" +:+ dquote
                +:+ "max-width:200px; height:auto; margin-top: 10px;"
                +:+ dquote +:+ ">") as ->
        by now rewrite !append_assoc.
    apply includes_prefix. discriminate.
Qed.

(** X12. A value that is falsy is not shown: a text property that is
    missing, null, false, the number 0 or the empty string reads N/A on
    its line, and a score that is falsy reads 0. *)
Theorem popupContent_falsy_default (o : gmap string prim) :
  (forall label key,
      In (label, key) text_fields ->
      ToBoolean (default Undefined (o !! key)) = false ->
      exists content : string,
        popupContent (VObject o) = Ok content /\
        includes content ("<b>" +:+ label +:+ ":</b> N/A<br>") = true) /\
  (ToBoolean (default Undefined (o !! "prioridade_score")) = false ->
   exists content : string,
     popupContent (VObject o) = Ok content /\
     includes content "<b>Prioridade:</b> 0<br>" = true).
Proof.
  split.
  - intros label key Hfield Hfalsy.
    unfold popupContent. rewrite !Get_object. cbn [mbind result_bind].
    cbn [text_fields In] in Hfield.
    destruct Hfield as [H | [H | [H | [H | [H | []]]]]];
      injection H as <- <-;
      rewrite (ToString_or_else_falsy _ (Str "N/A") Hfalsy);
      destruct (ToBoolean (default Undefined (o !! "foto_url")));
      eexists; (split; [reflexivity |]); rewrite ?append_assoc.
    all: first [ find_line "<b>Tipo:</b> "
               | find_line "<b>Descrição:</b> "
               | find_line "<b>Intensidade:</b> "
               | find_line "<b>Origem:</b> "
               | find_line "<b>Status:</b> " ].
  - intros Hfalsy.
    unfold popupContent. rewrite !Get_object. cbn [mbind result_bind].
    rewrite (ToString_or_else_falsy _ (num_of_Z 0) Hfalsy).
    destruct (ToBoolean (default Undefined (o !! "foto_url")));
      eexists; (split; [reflexivity |]); rewrite ?append_assoc;
      find_line "<b>Prioridade:</b> ".
Qed.

(** ** Further properties of the render *)



(** ** Further properties of the script *)

(** X3. From any state of the page in which config is defined, the fetch
    chain sends one request, to the configured WFS URL, leaves the view of
    the map alone and ends normally, in one of two ways: it adds one
    marker layer and logs the success, with no alert; or it adds no layer,
    logs one error and shows one alert. Nothing that was on the page is
    removed. *)
Theorem load_leaks_reports_once (w : World) (c : Config)
        (settles : result Response) :
  global_config w = Some c ->
  snd (load_leaks settles w) = Ok tt /\
  requests (fst (load_leaks settles w)) = (requests w ++ [wfsServiceUrl c])%list /\
  map_view (fst (load_leaks settles w)) = map_view w /\
  ((exists ms,
       map_layers (fst (load_leaks settles w))
       = (map_layers w ++ [GeoJSONLayer ms])%list /\
       console (fst (load_leaks settles w))
       = (console w ++ [ConsoleLog "Dados de vazamentos carregados com sucesso."])%list /\
       alerts (fst (load_leaks settles w)) = alerts w) \/
   (exists e,
       map_layers (fst (load_leaks settles w)) = map_layers w /\
       console (fst (load_leaks settles w))
       = (console w ++ [ConsoleError "Erro ao carregar dados WFS:" (Some e)])%list /\
       alerts (fst (load_leaks settles w))
       = (alerts w ++ ["Não foi possível carregar os dados de vazamentos. Verifique a URL do WFS e o servidor."])%list)).
Proof.
  intros Hconfig.
  unfold load_leaks, catch, mbind, script_bind, read_config, fetch.
  rewrite Hconfig.
  destruct settles as [response | e].
  2: { repeat split. right. exists e. repeat split. }
  destruct (ok response); cbn [negb].
  2: { repeat split. right. eexists. repeat split. }
  unfold lift. destruct (json response) as [data | e].
  2: { repeat split. right. exists e. repeat split. }
  destruct data as [| fs].
  { repeat split. right. eexists. repeat split. }
  cbn [geoJSON]. unfold mbind at 1, result_bind at 1.
  destruct (geoJSON_features geoJSON_options fs) as [ms | e].
  - repeat split. left. exists ms. repeat split.
  - repeat split. right. exists e. repeat split.
Qed.

(** X4. Whatever the request settles to, when config is defined the script
    sets the view of the map to the configured centre and zoom and puts the
    base layer, with the configured tiles and attribution and the maximum
    zoom 19, first on the map, with at most one layer after it; the script
    ends normally and the console holds one entry, which is not the
    complaint about config.js. *)
Theorem main_bootstraps_map (c : Config) (settles : result Response) :
  snd (main settles (boot (Some c))) = Ok tt /\
  map_view (page_after c settles)
  = Some ({| lat := centerLat c; lng := centerLon c |}, defaultZoom c) /\
  (exists rest,
      map_layers (page_after c settles)
      = TileLayer (osmTileUrl c) (osmAttribution c) 19 :: rest /\
      length rest <= 1) /\
  length (console (page_after c settles)) = 1 /\
  ~ In (ConsoleError
          "Erro: config.js não foi carregado. Verifique o caminho no index.html."
          None)
       (console (page_after c settles)).
Proof.
  split; [apply caught |].
  destruct (page_after_cases c settles)
    as [[e ->] | (fs & ms & _ & _ & ->)]; cbn.
  - repeat split; [exists []; split; [reflexivity | cbn; lia] |].
    intros [H | []]. discriminate.
  - repeat split; [eexists; split; [reflexivity | cbn; lia] |].
    intros [H | []]. discriminate.
Qed.

(** X5. A failure before the render reaches console.error as it is: the
    reason of a rejected request, and the reason for which the body of an
    accepted response does not parse; and the body of a response that is
    not ok is never read: the page ends the same whatever that body is. *)
Theorem failure_logged_as_is (c : Config) :
  (forall e,
      console (page_after c (Throw e))
      = [ConsoleError "Erro ao carregar dados WFS:" (Some e)]) /\
  (forall response e,
      ok response = true -> json response = Throw e ->
      console (page_after c (Ok response))
      = [ConsoleError "Erro ao carregar dados WFS:" (Some e)]) /\
  (forall response body,
      ok response = false ->
      page_after c (Ok response)
      = page_after c (Ok {| status := status response; json := body |})).
Proof.
  split; [| split].
  - intros e. now rewrite page_after_rejected.
  - intros response e Hok Hjson.
    now rewrite (page_after_unparsed c response e Hok Hjson).
  - intros response body Hok.
    rewrite (page_after_not_ok c response Hok).
    now rewrite (page_after_not_ok c {| status := status response;
                                        json := body |} Hok).
Qed.

(** X2. The check of config only logs. From any state of the page in which
    config is not defined, the script writes its complaint to the console
    and then stops on the ReferenceError of its first use of config: no
    view is set, no layer added, no request sent, no alert shown. *)
Theorem main_without_config (w : World) (settles : result Response) :
  global_config w = None ->
  (exists message,
      snd (main settles w) = Throw (ReferenceError message)) /\
  console (fst (main settles w))
  = (console w
       ++ [ConsoleError
             "Erro: config.js não foi carregado. Verifique o caminho no index.html."
             None])%list /\
  map_view (fst (main settles w)) = map_view w /\
  map_layers (fst (main settles w)) = map_layers w /\
  requests (fst (main settles w)) = requests w /\
  alerts (fst (main settles w)) = alerts w.
Proof.
  intros Hconfig.
  unfold main, mbind, script_bind, config_is_undefined, read_config,
    console_error.
  rewrite Hconfig. cbn [global_config]. rewrite Hconfig.
  repeat split. eexists. reflexivity.
Qed.

(** ** A date that is not one *)

(** When new Date makes a valid date of the value, the popup shows its
    locale rendering.  So it does for null, false and true, which new Date
    reads as the numbers 0, 0 and 1: the popup then shows a date at the
    epoch, not the rendering of an invalid date. *)
Lemma popupContent_valid_date (o : gmap string prim) (t : Z) :
  Date_new (default Undefined (o !! "data_submissao")) = Some t ->
  exists content : string,
    popupContent (VObject o) = Ok content /\
    includes content
      ("<b>Reportado em:</b> " +:+ Date_localeFormat t +:+ "<br>") = true.
Proof.
  intros Hdate.
  unfold popupContent. rewrite !Get_object. cbn [mbind result_bind].
  rewrite Hdate. cbn [toLocaleString].
  destruct (ToBoolean (default Undefined (o !! "foto_url")));
    eexists; (split; [reflexivity |]); rewrite ?append_assoc;
    find_line "<b>Reportado em:</b> ".
Qed.

Lemma Date_new_scalars :
  Date_new Null = Some 0%Z /\
  Date_new (Bool false) = Some 0%Z /\
  Date_new (Bool true) = Some 1%Z.
Proof. repeat split. Qed.

End Runtime.

(** ** Worked examples

    The examples run the model with the services of the runtime left blank;
    none of them reaches one. *)

Definition no_digits : Q -> string := fun _ => EmptyString.
Definition no_number : string -> number := fun _ => NaN.
Definition no_date : string -> option Z := fun _ => None.
Definition no_format : Z -> string := fun _ => EmptyString.

Definition somewhere : LatLng := {| lat := - (2355 # 100); lng := - (4663 # 100) |}.

Definition feature_with_score (score : Z) : Feature := {|
  properties := VObject {[ "prioridade_score" := num_of_Z score ]};
  latlng := somewhere
|}.

Definition feature_without_properties : Feature := {|
  properties := VPrim Null;
  latlng := somewhere
|}.

Definition response_with (status : Z) (fs : list Feature) : Response := {|
  status := status;
  json := Ok (FeatureCollection fs)
|}.

(** Scenario C of the specification: the fill colour for the scores 3 and 1
    and for a feature with no score. *)
Example scenario_C :
  fillColor <$> stylePoints no_number (feature_with_score 3) = Ok "orange" /\
  fillColor <$> stylePoints no_number (feature_with_score 1) = Ok "green" /\
  fillColor <$> stylePoints no_number
                  {| properties := VObject ∅; latlng := somewhere |}
  = Ok "green".
Proof. repeat split; vm_compute; reflexivity. Qed.

(** Scenario B: one feature of score 7 gives one marker, filled red. *)
Example scenario_B :
  map (fun m => fillColor (options m))
      (markers_on_map
         (page_after no_digits no_number no_date no_format config
            (Ok (response_with 200 [feature_with_score 7]))))
  = ["red"].
Proof. vm_compute. reflexivity. Qed.

(** Scenario A: the status 500 gives one alert and no marker. *)
Example scenario_A :
  let page := page_after no_digits no_number no_date no_format config
                (Ok (response_with 500 [feature_with_score 7])) in
  length (alerts page) = 1%nat /\ markers_on_map page = [] /\
  console page
  = [ConsoleError "Erro ao carregar dados WFS:"
       (Some (Error "Erro HTTP! Status: 500"))].
Proof. vm_compute. repeat split; reflexivity. Qed.

(** C2, at the score 3. *)
Lemma stylePoints_record_at_3 :
  Get (properties (feature_with_score 3)) "prioridade_score"
  = Ok (num_of_Z 3) /\
  (num_of_Z 3 = Undefined \/ (exists n, num_of_Z 3 = Num n)) /\
  stylePoints no_number (feature_with_score 3)
  = Ok {| radius := 8;
          fillColor :=
            getPriorityColor no_number (nullish_else (num_of_Z 3) (num_of_Z 0));
          color := "#000";
          weight := 1;
          opacity := 1;
          fillOpacity := 8 # 10 |}.
Proof.
  assert (Get (properties (feature_with_score 3)) "prioridade_score"
          = Ok (num_of_Z 3)) as Hget by (vm_compute; reflexivity).
  assert (num_of_Z 3 = Undefined \/ (exists n, num_of_Z 3 = Num n)) as Hnum
      by (right; eexists; reflexivity).
  split; [exact Hget |]. split; [exact Hnum |].
  exact (proj1 (stylePoints_record no_number (feature_with_score 3)
                  (num_of_Z 3) Hget Hnum)).
Defined.

(** C3, at the status 500. *)
Lemma http_error_reported_at_500 :
  ok (response_with 500 []) = false /\
  console (page_after no_digits no_number no_date no_format config
             (Ok (response_with 500 [])))
  = [ConsoleError "Erro ao carregar dados WFS:"
       (Some (Error "Erro HTTP! Status: 500"))] /\
  alerts (page_after no_digits no_number no_date no_format config
            (Ok (response_with 500 [])))
  = ["Não foi possível carregar os dados de vazamentos. Verifique a URL do WFS e o servidor."] /\
  markers_on_map (page_after no_digits no_number no_date no_format config
                    (Ok (response_with 500 []))) = [].
Proof.
  assert (ok (response_with 500 []) = false) as Hok by reflexivity.
  split; [exact Hok |].
  pose proof (http_error_reported no_digits no_number no_date no_format
                config (response_with 500 []) Hok) as H.
  split; [exact (proj1 H) |].
  split; [exact (proj1 (proj2 (proj2 H))) |].
  exact (proj1 (proj2 (proj2 (proj2 (proj2 H))))).
Defined.

(** The marker layer at scenario B. *)
Lemma markers_only_after_success_at_B :
  loaded (Ok (response_with 200 [feature_with_score 7])) [feature_with_score 7]
  /\ all_have_properties [feature_with_score 7] = true
  /\ exists ms,
      map_layers (page_after no_digits no_number no_date no_format config
                    (Ok (response_with 200 [feature_with_score 7])))
      = [TileLayer (osmTileUrl config) (osmAttribution config) 19;
         GeoJSONLayer ms]
      /\ markers_on_map
           (page_after no_digits no_number no_date no_format config
              (Ok (response_with 200 [feature_with_score 7]))) = ms
      /\ length ms = length [feature_with_score 7]
      /\ alerts (page_after no_digits no_number no_date no_format config
                   (Ok (response_with 200 [feature_with_score 7]))) = [].
Proof.
  assert (loaded (Ok (response_with 200 [feature_with_score 7]))
            [feature_with_score 7]) as Hloaded
      by (eexists; repeat split; reflexivity).
  assert (all_have_properties [feature_with_score 7] = true) as Hall
      by reflexivity.
  split; [exact Hloaded |]. split; [exact Hall |].
  exact (proj2 (proj2 (markers_only_after_success no_digits no_number no_date
                         no_format config
                         (Ok (response_with 200 [feature_with_score 7]))))
           [feature_with_score 7] Hloaded Hall).
Defined.

(** C4. On success all markers are to be attached in one step; the script
    misses it on this input: the request succeeds with status 200 and its
    body parses as a collection of one feature whose properties member is
    null, yet no marker reaches the map, the TypeError of stylePoints is
    logged and the alert is shown. *)
Lemma null_properties_render_nothing :
  loaded (Ok (response_with 200 [feature_without_properties]))
         [feature_without_properties] /\
  markers_on_map
    (page_after no_digits no_number no_date no_format config
       (Ok (response_with 200 [feature_without_properties]))) = [] /\
  alerts
    (page_after no_digits no_number no_date no_format config
       (Ok (response_with 200 [feature_without_properties])))
  = ["Não foi possível carregar os dados de vazamentos. Verifique a URL do WFS e o servidor."] /\
  console
    (page_after no_digits no_number no_date no_format config
       (Ok (response_with 200 [feature_without_properties])))
  = [ConsoleError "Erro ao carregar dados WFS:"
       (Some (TypeError
                "Cannot read properties of null (reading 'prioridade_score')"))].
Proof.
  split; [eexists; repeat split; reflexivity |].
  rewrite (null_properties_page no_digits no_number no_date no_format config
             (response_with 200 [feature_without_properties]) somewhere
             eq_refl eq_refl).
  repeat split; reflexivity.
Qed.

(** C6 as stated fails: the photo URL is present, as the empty string, and
    the popup holds no image. *)
Lemma empty_photo_url_present_without_image :
  ({[ "foto_url" := Str EmptyString ]} : gmap string prim) !! "foto_url"
  = Some (Str EmptyString) /\
  (content ← popupContent no_digits no_number no_date no_format
               (VObject {[ "foto_url" := Str EmptyString ]});
   Ok (includes content "<img")) = Ok false.
Proof.
  split; [reflexivity |].
  exact (empty_photo_url_popup no_digits no_number no_date no_format).
Qed.

(** C10, at a feature with no submission date. *)
Lemma popupContent_invalid_date_at_empty :
  ((∅ : gmap string prim) !! "data_submissao" = None \/
   Date_new no_number no_date
     (default Undefined ((∅ : gmap string prim) !! "data_submissao")) = None)
  /\ exists content : string,
      popupContent no_digits no_number no_date no_format (VObject ∅)
      = Ok content /\
      includes content "<b>Reportado em:</b> Invalid Date<br>" = true.
Proof.
  assert ((∅ : gmap string prim) !! "data_submissao" = None \/
          Date_new no_number no_date
            (default Undefined ((∅ : gmap string prim) !! "data_submissao"))
          = None) as Hdate by (left; reflexivity).
  split; [exact Hdate |].
  exact (proj2 (proj2 (popupContent_invalid_date no_digits no_number no_date
                         no_format ∅ Hdate))).
Defined.

(** C6, amended, at a feature with a photo. *)
Lemma popupContent_photo_at_url :
  ToBoolean (default Undefined
               (({[ "foto_url" := Str "https://example.org/vazamento.jpg" ]}
                   : gmap string prim) !! "foto_url")) = true /\
  (content ← popupContent no_digits no_number no_date no_format
               (VObject {[ "foto_url" := Str "https://example.org/vazamento.jpg" ]});
   Ok (includes content "<img src=")) = Ok true.
Proof.
  assert (ToBoolean
            (default Undefined
               (({[ "foto_url" := Str "https://example.org/vazamento.jpg" ]}
                   : gmap string prim) !! "foto_url")) = true) as Htruthy
      by reflexivity.
  split; [exact Htruthy |].
  destruct (popupContent_photo no_digits no_number no_date no_format
              {[ "foto_url" := Str "https://example.org/vazamento.jpg" ]})
    as (base & _ & _ & _ & Hphoto).
  exact (Hphoto Htruthy).
Defined.

(** C9, at a feature whose properties member is null. *)
Lemma stylePoints_unguarded_at_null :
  lacks_properties feature_without_properties = true /\
  (exists message,
      stylePoints no_number feature_without_properties
      = Throw (TypeError message)) /\
  onEachFeature no_digits no_number no_date no_format
    feature_without_properties
    (circleMarker somewhere
       {| radius := 8; fillColor := "green"; color := "#000"; weight := 1;
          opacity := 1; fillOpacity := 8 # 10 |})
  = Ok (circleMarker somewhere
          {| radius := 8; fillColor := "green"; color := "#000"; weight := 1;
             opacity := 1; fillOpacity := 8 # 10 |}).
Proof.
  assert (lacks_properties feature_without_properties = true) as Hlacks
      by reflexivity.
  split; [exact Hlacks |].
  exact (proj1 (stylePoints_unguarded no_digits no_number no_date no_format
                  feature_without_properties
                  (circleMarker somewhere
                     {| radius := 8; fillColor := "green"; color := "#000";
                        weight := 1; opacity := 1; fillOpacity := 8 # 10 |}))
           Hlacks).
Defined.

(** ** Worked examples of the further properties *)


Definition described (text : string) : gmap string prim :=
  {[ "descricao_detalhes" := Str text ]}.

(** X9, at the scores 1 and 7. *)
Lemma getPriorityColor_monotone_at_1_7 :
  (1 <= 7)%Q /\
  priority_rank (getPriorityColor no_number (Num (Finite 1)))
  <= priority_rank (getPriorityColor no_number (Num (Finite 7))).
Proof.
  assert (1 <= 7)%Q as Hle by (unfold Qle; cbn; lia).
  split; [exact Hle |].
  exact (getPriorityColor_monotone no_number 1 7 Hle).
Defined.

(** X8, at a score that is null. *)
Lemma stylePoints_any_score_at_null :
  Get (VObject {[ "prioridade_score" := Null ]}) "prioridade_score" = Ok Null
  /\ stylePoints no_number
       {| properties := VObject {[ "prioridade_score" := Null ]};
          latlng := somewhere |}
     = Ok {| radius := 8; fillColor := "green"; color := "#000"; weight := 1;
             opacity := 1; fillOpacity := 8 # 10 |}.
Proof.
  assert (Get (VObject {[ "prioridade_score" := Null ]}) "prioridade_score"
          = Ok Null) as Hget by reflexivity.
  split; [exact Hget |].
  exact (stylePoints_any_score no_number
           {| properties := VObject {[ "prioridade_score" := Null ]};
              latlng := somewhere |} Null Hget).
Defined.

(** X10, at a feature with one more attribute. *)
Lemma popupContent_reads_only_at_extra :
  (forall name, In name popup_fields ->
     described "Vazamento na calçada" !! name
     = (<[ "id" := num_of_Z 42 ]> (described "Vazamento na calçada")) !! name)
  /\ popupContent no_digits no_number no_date no_format
       (VObject (described "Vazamento na calçada"))
     = popupContent no_digits no_number no_date no_format
         (VObject (<[ "id" := num_of_Z 42 ]>
                     (described "Vazamento na calçada"))).
Proof.
  assert (forall name, In name popup_fields ->
            described "Vazamento na calçada" !! name
            = (<[ "id" := num_of_Z 42 ]>
                 (described "Vazamento na calçada")) !! name) as Hsame.
  { intros name Hin. cbn [popup_fields In] in Hin.
    repeat (destruct Hin as [<- | Hin]; [vm_compute; reflexivity |]).
    destruct Hin. }
  split; [exact Hsame |].
  exact (proj1 (popupContent_reads_only no_digits no_number no_date no_format
                  (described "Vazamento na calçada")
                  (<[ "id" := num_of_Z 42 ]>
                     (described "Vazamento na calçada"))) Hsame).
Defined.

(** X11, at a description that holds markup. *)
Lemma popupContent_verbatim_at_markup :
  "<i>urgente</i>" <> EmptyString /\
  In ("Descrição", "descricao_detalhes") text_fields /\
  described "<i>urgente</i>" !! "descricao_detalhes"
  = Some (Str "<i>urgente</i>") /\
  exists content : string,
    popupContent no_digits no_number no_date no_format
      (VObject (described "<i>urgente</i>")) = Ok content /\
    includes content "<b>Descrição:</b> <i>urgente</i><br>" = true.
Proof.
  assert ("<i>urgente</i>" <> EmptyString) as Hs by discriminate.
  assert (In ("Descrição", "descricao_detalhes") text_fields) as Hfield
      by (cbn; tauto).
  assert (described "<i>urgente</i>" !! "descricao_detalhes"
          = Some (Str "<i>urgente</i>")) as Hkey by reflexivity.
  split; [exact Hs |]. split; [exact Hfield |]. split; [exact Hkey |].
  exact (proj1 (popupContent_verbatim no_digits no_number no_date no_format
                  (described "<i>urgente</i>") "<i>urgente</i>" Hs)
           "Descrição" "descricao_detalhes" Hfield Hkey).
Defined.

(** X12, at an intensity of 0. *)
Lemma popupContent_falsy_default_at_0 :
  In ("Intensidade", "intensidade_vazamento") text_fields /\
  ToBoolean
    (default Undefined
       (({[ "intensidade_vazamento" := num_of_Z 0 ]} : gmap string prim)
          !! "intensidade_vazamento")) = false /\
  exists content : string,
    popupContent no_digits no_number no_date no_format
      (VObject {[ "intensidade_vazamento" := num_of_Z 0 ]}) = Ok content /\
    includes content "<b>Intensidade:</b> N/A<br>" = true.
Proof.
  assert (In ("Intensidade", "intensidade_vazamento") text_fields) as Hfield
      by (cbn; tauto).
  assert (ToBoolean
            (default Undefined
               (({[ "intensidade_vazamento" := num_of_Z 0 ]}
                   : gmap string prim) !! "intensidade_vazamento")) = false)
    as Hfalsy by reflexivity.
  split; [exact Hfield |]. split; [exact Hfalsy |].
  exact (proj1 (popupContent_falsy_default no_digits no_number no_date
                  no_format {[ "intensidade_vazamento" := num_of_Z 0 ]})
           "Intensidade" "intensidade_vazamento" Hfield Hfalsy).
Defined.


(** X3, at a request that the network rejects. *)
Lemma load_leaks_reports_once_at_rejection :
  global_config (boot (Some config)) = Some config /\
  requests (fst (load_leaks no_digits no_number no_date no_format
                   (Throw (TypeError "Failed to fetch"))
                   (boot (Some config))))
  = (requests (boot (Some config)) ++ [wfsServiceUrl config])%list.
Proof.
  assert (global_config (boot (Some config)) = Some config) as Hconfig
      by reflexivity.
  split; [exact Hconfig |].
  exact (proj1 (proj2 (load_leaks_reports_once no_digits no_number no_date
                         no_format (boot (Some config)) config
                         (Throw (TypeError "Failed to fetch")) Hconfig))).
Defined.

(** X5, at a body that is not JSON. *)
Lemma failure_logged_as_is_at_syntax_error :
  ok {| status := 200; json := Throw (SyntaxError "Unexpected token <") |}
  = true /\
  console
    (page_after no_digits no_number no_date no_format config
       (Ok {| status := 200;
              json := Throw (SyntaxError "Unexpected token <") |}))
  = [ConsoleError "Erro ao carregar dados WFS:"
       (Some (SyntaxError "Unexpected token <"))].
Proof.
  assert (ok {| status := 200;
                json := Throw (SyntaxError "Unexpected token <") |} = true)
    as Hok by reflexivity.
  split; [exact Hok |].
  exact (proj1 (proj2 (failure_logged_as_is no_digits no_number no_date
                         no_format config))
           {| status := 200; json := Throw (SyntaxError "Unexpected token <") |}
           (SyntaxError "Unexpected token <") Hok eq_refl).
Defined.

(** X2, at the page on which config.js did not load. *)
Lemma main_without_config_at_boot :
  global_config (boot None) = None /\
  requests (fst (main no_digits no_number no_date no_format
                   (Ok (response_with 200 [feature_with_score 7]))
                   (boot None))) = requests (boot None) /\
  alerts (fst (main no_digits no_number no_date no_format
                 (Ok (response_with 200 [feature_with_score 7]))
                 (boot None))) = alerts (boot None).
Proof.
  assert (global_config (boot None) = None) as Hconfig by reflexivity.
  split; [exact Hconfig |].
  pose proof (main_without_config no_digits no_number no_date no_format
                (boot None) (Ok (response_with 200 [feature_with_score 7]))
                Hconfig) as H.
  split; [exact (proj1 (proj2 (proj2 (proj2 (proj2 H))))) |].
  exact (proj2 (proj2 (proj2 (proj2 (proj2 H))))).
Defined.

(** A rendering of valid dates to run the model with: the time value,
    counted from the epoch. *)
Definition epoch_ms (t : Z) : string := pretty t +:+ " ms after the epoch".

(** C10 as stated fails: null is not a parseable date, yet new Date reads it
    as the number 0; the popup shows the date of the epoch on its line and
    the rendering of an invalid date nowhere. *)
Lemma null_date_prints_epoch :
  ({[ "data_submissao" := Null ]} : gmap string prim) !! "data_submissao"
  = Some Null /\
  Date_new no_number no_date Null = Some 0%Z /\
  (content ← popupContent no_digits no_number no_date epoch_ms
               (VObject {[ "data_submissao" := Null ]});
   Ok (includes content "<b>Reportado em:</b> 0 ms after the epoch<br>"))
  = Ok true /\
  (content ← popupContent no_digits no_number no_date epoch_ms
               (VObject {[ "data_submissao" := Null ]});
   Ok (includes content "Invalid Date")) = Ok false.
Proof. repeat split; vm_compute; reflexivity. Qed.
